(** * conda_build/link.py: the link-error handler

    A shallow embedding of [BaseLinkErrorHandler] and [LinkErrorHandler].
    Python objects become records, [set] becomes [gset string], the [dict]
    [self.extern] becomes an insertion-ordered association list, and the
    methods become computations in a small state-and-exception monad whose
    state survives a raised exception, as a Python object's attributes do. *)

From Stdlib Require Import Ascii String ZArith.
From stdpp Require Import gmap strings list.

Local Open Scope string_scope.
#[local] Set Warnings "-clear-no-such-hyp".

(** ** Strings *)

Definition nl : string := String "010"%char "".

(** [sep.join(l)] *)
Fixpoint join (sep : string) (l : list string) : string :=
  match l with
  | [] => ""
  | [x] => x
  | x :: l' => x +:+ sep +:+ join sep l'
  end.

(** ** textwrap.dedent

    Lines made of blanks only are reduced to their line break and do not
    take part in the margin; the margin is the longest run of blanks all
    other lines start with. *)
Module textwrap.

Definition is_blank (c : ascii) : bool :=
  bool_decide (c = " "%char) || bool_decide (c = "009"%char).

Fixpoint splitlines_aux (cur : string) (s : string) : list string :=
  match s with
  | EmptyString => [cur]
  | String c s' =>
      if bool_decide (c = "010"%char)
      then cur :: splitlines_aux "" s'
      else splitlines_aux (cur +:+ String c "") s'
  end.

(** the text cut at every line break; the breaks themselves are dropped *)
Definition split_lines (s : string) : list string := splitlines_aux "" s.

Fixpoint all_blank (s : string) : bool :=
  match s with
  | EmptyString => true
  | String c s' => is_blank c && all_blank s'
  end.

Fixpoint leading_blanks (s : string) : string :=
  match s with
  | EmptyString => ""
  | String c s' => if is_blank c then String c (leading_blanks s') else ""
  end.

Fixpoint common_prefix (a b : string) : string :=
  match a, b with
  | String x a', String y b' =>
      if bool_decide (x = y) then String x (common_prefix a' b') else ""
  | _, _ => ""
  end.

Fixpoint margin (acc : option string) (ls : list string) : string :=
  match ls with
  | [] => default "" acc
  | l :: ls' =>
      if all_blank l then margin acc ls'
      else
        let i := leading_blanks l in
        margin (Some (from_option (common_prefix i) i acc)) ls'
  end.

Fixpoint drop_chars (n : nat) (s : string) : string :=
  match n, s with
  | S n', String _ s' => drop_chars n' s'
  | _, _ => s
  end.

Definition dedent (text : string) : string :=
  let ls := split_lines text in
  let m := String.length (margin None ls) in
  join nl ((λ l, if all_blank l then "" else drop_chars m l) <$> ls).

End textwrap.

(** ** Globals *)

Definition final_message_literal : string :=
  nl +:+
  "    See http://conda.pydata.org/docs/link-errors.html for more info." +:+ nl +:+
  nl +:+
  "    Tip: run `conda build --ignore-link-errors` to ignore these errors and" +:+ nl +:+
  "    build the package anyway.  Note that the resulting package will not work" +:+ nl +:+
  "    if you install it on a different system *unless* that system also has all" +:+ nl +:+
  "    of the libraries listed above installed." +:+ nl.

Definition final_message : string := textwrap.dedent final_message_literal.

(** ** The error records of conda_build.dll *)

(** Modelled from the spec: the classes [BrokenLinkage] and [ExternalLinkage]
    of conda_build.dll, which is not part of the sources at hand.  A record
    carries [dependent_library_name]; [ExternalLinkage] derives from
    [BrokenLinkage] and carries [actual_link_target] as well.  [OtherError]
    stands for a record of any class that does not derive from
    [BrokenLinkage]. *)
Inductive LinkError : Type :=
| BrokenLinkage (name : string)
| ExternalLinkage (name : string) (target : string)
| OtherError (name : string).

Definition dependent_library_name (error : LinkError) : string :=
  match error with
  | BrokenLinkage n | ExternalLinkage n _ | OtherError n => n
  end.

(** [isinstance(error, ExternalLinkage)], handing back the attribute
    [actual_link_target] that only such a record has *)
Definition as_ExternalLinkage (error : LinkError) : option string :=
  match error with
  | ExternalLinkage _ t => Some t
  | _ => None
  end.

Definition isinstance_ExternalLinkage (error : LinkError) : bool :=
  bool_decide (is_Some (as_ExternalLinkage error)).

(** [isinstance(error, BrokenLinkage)]: true of the subclass too *)
Definition isinstance_BrokenLinkage (error : LinkError) : bool :=
  match error with
  | BrokenLinkage _ | ExternalLinkage _ _ => true
  | OtherError _ => false
  end.

(** ** dict, in insertion order

    [d[k] = v] keeps the place of a key that is already there and appends a
    new key at the end; [keys], [values] and [items] run in that order. *)
Module dict.

Definition t : Type := list (string * string).

Definition empty : t := [].

Fixpoint setitem (d : t) (k v : string) : t :=
  match d with
  | [] => [(k, v)]
  | (k', v') :: d' =>
      if bool_decide (k' = k) then (k', v) :: d'
      else (k', v') :: setitem d' k v
  end.

Fixpoint get (d : t) (k : string) : option string :=
  match d with
  | [] => None
  | (k', v') :: d' => if bool_decide (k' = k) then Some v' else get d' k
  end.

Definition items (d : t) : list (string * string) := d.
Definition keys (d : t) : list string := fst <$> d.
Definition values (d : t) : list string := snd <$> d.
Definition len (d : t) : nat := length d.

End dict.

(** ** Exceptions and the world *)

(** what [assert_disjoint] hands to its [AssertionError]:
    [(intersection, left, right)] *)
Definition DisjointArgs : Type := (gset string * list string * gset string)%type.

Inductive Exn : Type :=
| AssertionError (args : option DisjointArgs)
| NotImplementedError
| SystemExit (code : Z).

(** [metadata] and [recipes] are stored and never looked at *)
Inductive PyObject : Type :=
| PyNone
| PyStr (s : string)
| PyRef (addr : nat).

(** the exception caught by the caller; only its [errors] are read *)
Record LinkErrors : Type := { errors_of : list LinkError }.

Record Handler : Type := mkHandler {
  metadata : PyObject;
  exception : LinkErrors;
  recipes : PyObject;
  ignore_link_errors : bool;
  errors : list LinkError;
  names : gset string;
  broken : gset string;
  extern : dict.t;
  new_library_recipe_needed : list string;
  recipe_needs_build_dependency_added : list string;
  (** set by [_process_errors] only: [None] while the attribute is missing *)
  error_messages : option (list string)
}.

(** [self] and the chunks written to [sys.stderr], oldest first *)
Record World : Type := mkWorld {
  self : Handler;
  stderr : list string
}.

Inductive Result (A : Type) : Type :=
| Return (a : A)
| Raise (e : Exn).
Arguments Return {A} a.
Arguments Raise {A} e.

Definition M (A : Type) : Type := World → World * Result A.

#[export] Instance M_ret : MRet M := λ A a w, (w, Return a).

#[export] Instance M_bind : MBind M := λ A B f m w,
  match m w with
  | (w', Return a) => f a w'
  | (w', Raise e) => (w', Raise e)
  end.

Definition raise {A} (e : Exn) : M A := λ w, (w, Raise e).

Definition update (f : Handler → Handler) : M unit :=
  λ w, (mkWorld (f (self w)) (stderr w), Return ()).

Definition read {A} (f : Handler → A) : M A :=
  λ w, (w, Return (f (self w))).

(** [sys.stderr.write(s)] *)
Definition stderr_write (s : string) : M unit :=
  λ w, (mkWorld (self w) (stderr w ++ [s])%list, Return ()).

(** [assert cond, args] *)
Definition assert (cond : bool) (args : option DisjointArgs) : M unit :=
  if cond then mret () else raise (AssertionError args).

(** [for x in l: body(x)] *)
Fixpoint for_each {A} (body : A → M unit) (l : list A) : M unit :=
  match l with
  | [] => mret ()
  | x :: l' => body x ;; for_each body l'
  end.

(** attribute updates *)
Definition set_names (v : gset string) (h : Handler) : Handler :=
  mkHandler (metadata h) (exception h) (recipes h) (ignore_link_errors h)
    (errors h) v (broken h) (extern h) (new_library_recipe_needed h)
    (recipe_needs_build_dependency_added h) (error_messages h).

Definition set_broken (v : gset string) (h : Handler) : Handler :=
  mkHandler (metadata h) (exception h) (recipes h) (ignore_link_errors h)
    (errors h) (names h) v (extern h) (new_library_recipe_needed h)
    (recipe_needs_build_dependency_added h) (error_messages h).

Definition set_extern (v : dict.t) (h : Handler) : Handler :=
  mkHandler (metadata h) (exception h) (recipes h) (ignore_link_errors h)
    (errors h) (names h) (broken h) v (new_library_recipe_needed h)
    (recipe_needs_build_dependency_added h) (error_messages h).

Definition set_new_library_recipe_needed (v : list string) (h : Handler) : Handler :=
  mkHandler (metadata h) (exception h) (recipes h) (ignore_link_errors h)
    (errors h) (names h) (broken h) (extern h) v
    (recipe_needs_build_dependency_added h) (error_messages h).

Definition set_error_messages (v : list string) (h : Handler) : Handler :=
  mkHandler (metadata h) (exception h) (recipes h) (ignore_link_errors h)
    (errors h) (names h) (broken h) (extern h) (new_library_recipe_needed h)
    (recipe_needs_build_dependency_added h) (Some v).

(** ** BaseLinkErrorHandler *)

(** the two methods a subclass has to bring *)
Record Methods : Type := {
  _categorize_errors : M unit;
  _process_errors : M unit
}.

Module BaseLinkErrorHandler.

Definition try_again : bool := false.
Definition allow_ignore_errors : bool := true.

Definition __init__ (metadata : PyObject) (exception : LinkErrors)
    (recipes : PyObject) (ignore_link_errors : bool) : Handler :=
  {| metadata := metadata;
     exception := exception;
     recipes := recipes;
     ignore_link_errors := ignore_link_errors;
     errors := errors_of exception;
     names := ∅;
     broken := ∅;
     extern := dict.empty;
     new_library_recipe_needed := [];
     recipe_needs_build_dependency_added := [];
     error_messages := None |}.

Definition _finalize : M unit :=
  stderr_write (final_message +:+ nl).

Definition sys_exit (code : Z) : M unit := raise (SystemExit code).

Definition handle (cls : Methods) : M unit :=
  _categorize_errors cls ;;
  _process_errors cls ;;
  _finalize ;;
  ignore ← read ignore_link_errors;
  if negb ignore then sys_exit 1 else mret ().

(** the abstract methods *)
Definition methods : Methods :=
  {| _categorize_errors := raise NotImplementedError;
     _process_errors := raise NotImplementedError |}.

End BaseLinkErrorHandler.

(** ** LinkErrorHandler *)

Module LinkErrorHandler.

Definition try_again : bool := false.

(** the body of the loop over [self.errors] *)
Definition categorize_error (error : LinkError) : M unit :=
  let name := dependent_library_name error in
  update (λ h, set_names ({[ name ]} ∪ names h) h) ;;
  match as_ExternalLinkage error with
  | Some actual_link_target =>
      update (λ h, set_extern (dict.setitem (extern h) name actual_link_target) h)
  | None =>
      assert (isinstance_BrokenLinkage error) None ;;
      update (λ h, set_broken ({[ name ]} ∪ broken h) h)
  end.

Definition assert_disjoint (left : list string) (right : gset string) : M unit :=
  let intersection : gset string := list_to_set left ∩ right in
  assert (bool_decide (intersection = ∅)) (Some (intersection, left, right)).

Definition categorize : M unit :=
  errs ← read errors;
  for_each categorize_error errs ;;
  ext ← read extern;
  brk ← read broken;
  assert_disjoint (dict.keys ext) brk ;;
  (* [if self.broken: msg = ...] binds a local that is never used *)
  ext ← read extern;
  for_each
    (λ '(name, path),
       update (λ h, set_new_library_recipe_needed
                      (new_library_recipe_needed h ++ [path])%list h))
    (dict.items ext).

Section process.

(** the order in which Python walks a set is not fixed by its elements *)
Variable set_order : gset string → list string.

Definition external_message (paths : list string) : string :=
  "Error: external linkage detected to libraries living outside " +:+
  "the build root:" +:+ nl +:+ "    " +:+ join (nl +:+ "   ") paths +:+ nl.

Definition broken_message (brk : gset string) : string :=
  "Error: broken linkage detected for the following packages: " +:+
  join ", " (set_order brk).

Definition process : M unit :=
  let msgs : list string := [] in
  needed ← read new_library_recipe_needed;
  let msgs := if bool_decide (needed ≠ [])
              then (msgs ++ [external_message needed])%list else msgs in
  brk ← read broken;
  let msgs := if bool_decide (brk ≠ ∅)
              then (msgs ++ [broken_message brk])%list else msgs in
  assert (bool_decide (msgs ≠ [])) None ;;
  stderr_write (join nl msgs +:+ nl) ;;
  update (set_error_messages msgs).

Definition methods : Methods :=
  {| _categorize_errors := categorize;
     _process_errors := process |}.

Definition handle : M unit := BaseLinkErrorHandler.handle methods.

End process.

End LinkErrorHandler.

(** ** What the input holds *)

Definition broken_names (errs : list LinkError) : list string :=
  omap (λ e, match e with BrokenLinkage n => Some n | _ => None end) errs.

Definition external_records (errs : list LinkError) : list (string * string) :=
  omap (λ e, match e with ExternalLinkage n t => Some (n, t) | _ => None end) errs.

Definition external_names (errs : list LinkError) : list string :=
  (external_records errs).*1.

(** one scan from the left that keeps a name the first time it shows up *)
Definition see (seen : list string) (x : string) : list string :=
  if bool_decide (x ∈ seen) then seen else (seen ++ [x])%list.

Definition first_seen (l : list string) : list string := foldl see [] l.

(** every record is a [BrokenLinkage] or, being derived from it, an
    [ExternalLinkage] *)
Definition all_linkage (errs : list LinkError) : Prop :=
  Forall (λ e, isinstance_BrokenLinkage e = true) errs.

(** no name is reported as broken and as external at once *)
Definition no_overlap (errs : list LinkError) : Prop :=
  ∀ n, n ∈ broken_names errs → n ∉ external_names errs.

(** the world in which a handler has just been built *)
Definition fresh (md : PyObject) (errs : list LinkError) (rc : PyObject)
    (ignore : bool) (out : list string) : World :=
  mkWorld (BaseLinkErrorHandler.__init__ md {| errors_of := errs |} rc ignore) out.

(** ** What the proofs speak of *)

(** a dict built by assignments alone *)
Definition assign_all (d : dict.t) (kvs : list (string * string)) : dict.t :=
  foldl (λ d kv, dict.setitem d kv.1 kv.2) d kvs.

(** what one turn of the loop makes of [self] when its assertion holds *)
Definition classified (h : Handler) (error : LinkError) : Handler :=
  let name := dependent_library_name error in
  let h := set_names ({[ name ]} ∪ names h) h in
  match as_ExternalLinkage error with
  | Some t => set_extern (dict.setitem (extern h) name t) h
  | None => set_broken ({[ name ]} ∪ broken h) h
  end.

(** [self] once the loop has run over all of [self.errors] *)
Definition scanned (w : World) : Handler :=
  foldl classified (self w) (errors (self w)).

(** what [assert_disjoint] computes from it *)
Definition overlap (h : Handler) : gset string :=
  list_to_set (dict.keys (extern h)) ∩ broken h.

(** the list [msgs] of [_process_errors] *)
Definition messages (set_order : gset string → list string) (h : Handler) : list string :=
  ((if bool_decide (new_library_recipe_needed h ≠ [])
    then [LinkErrorHandler.external_message (new_library_recipe_needed h)] else []) ++
   (if bool_decide (broken h ≠ ∅)
    then [LinkErrorHandler.broken_message set_order (broken h)] else []))%list.

(** the fields [_categorize_errors] reads and writes *)
Definition same_classification (ha hb : Handler) : Prop :=
  errors ha = errors hb ∧ names ha = names hb ∧ broken ha = broken hb ∧
  extern ha = extern hb ∧
  new_library_recipe_needed ha = new_library_recipe_needed hb.

(** the messages [_process_errors] makes, read off the input *)
Definition report (set_order : gset string → list string)
    (errs : list LinkError) : list string :=
  let paths := dict.values (assign_all dict.empty (external_records errs)) in
  let brk : gset string := list_to_set (broken_names errs) in
  ((if bool_decide (paths ≠ [])
    then [LinkErrorHandler.external_message paths] else []) ++
   (if bool_decide (brk ≠ ∅)
    then [LinkErrorHandler.broken_message set_order brk] else []))%list.

(** the collection of the third scenario: one broken record and one external
    record, under different names *)
Definition mixed : list LinkError :=
  [BrokenLinkage "libfoo.so"; ExternalLinkage "libbar.so" "/opt/libs/libbar.so"].

(** the world [_categorize_errors] leaves behind on [mixed] *)
Definition mixed_done : World :=
  (LinkErrorHandler.categorize (fresh PyNone mixed PyNone false [])).1.

(** a collection in which one external name comes twice, around another *)
Definition repeated : list LinkError :=
  [ExternalLinkage "libbar.so" "/opt/libs/libbar.so";
   ExternalLinkage "libz.so" "/usr/lib/libz.so";
   ExternalLinkage "libbar.so" "/usr/local/lib/libbar.so"].

(** the world [_categorize_errors] leaves behind on [repeated] *)
Definition repeated_done : World :=
  (LinkErrorHandler.categorize (fresh PyNone repeated PyNone false [])).1.

(** one name reported as broken and as external *)
Definition clash : list LinkError :=
  [BrokenLinkage "liba.so"; ExternalLinkage "liba.so" "/opt/lib/liba.so"].

(** a clash, and a record of a foreign class behind it *)
Definition clash_and_stranger : list LinkError :=
  [BrokenLinkage "liba.so"; ExternalLinkage "liba.so" "/opt/lib/liba.so";
   OtherError "libc.so"].

(** [sub in s] *)
Definition contains (s sub : string) : Prop :=
  ∃ pre post, s = pre +:+ sub +:+ post.

(** the records of [mixed], the other way round *)
Definition mixed_swapped : list LinkError :=
  [ExternalLinkage "libbar.so" "/opt/libs/libbar.so"; BrokenLinkage "libfoo.so"].

(** * Lemmas *)

(** ** dict *)

Lemma dict_keys_setitem (d : dict.t) k v :
  dict.keys (dict.setitem d k v) = see (dict.keys d) k.
Proof.
  unfold see, dict.keys. induction d as [|[k' v'] d IH]; csimpl.
  - done.
  - destruct (bool_decide_reflect (k' = k)) as [->|Hne]; csimpl.
    + rewrite bool_decide_eq_true_2; [done | set_solver].
    + rewrite IH. destruct (bool_decide_reflect (k ∈ d.*1)) as [Hin|Hnin].
      * rewrite bool_decide_eq_true_2; [done | set_solver].
      * rewrite bool_decide_eq_false_2; [done | set_solver].
Qed.

Lemma dict_get_setitem (d : dict.t) k v k' :
  dict.get (dict.setitem d k v) k' = if bool_decide (k = k') then Some v else dict.get d k'.
Proof.
  induction d as [|[k0 v0] d IH]; simpl.
  - done.
  - destruct (bool_decide_reflect (k0 = k)) as [->|Hne]; simpl.
    + by destruct (bool_decide_reflect (k = k')).
    + rewrite IH. destruct (bool_decide_reflect (k0 = k')) as [->|Hne'].
      * by rewrite bool_decide_eq_false_2.
      * done.
Qed.

Lemma see_NoDup (seen : list string) x : NoDup seen → NoDup (see seen x).
Proof.
  intros Hnd. unfold see. case_bool_decide; [done|].
  apply NoDup_app. split_and!; [done | set_solver | apply NoDup_singleton].
Qed.

Lemma see_elem_of (seen : list string) x y : y ∈ see seen x ↔ y ∈ seen ∨ y = x.
Proof. unfold see. case_bool_decide; set_solver. Qed.

Lemma foldl_see_NoDup (l seen : list string) : NoDup seen → NoDup (foldl see seen l).
Proof. revert seen. induction l; simpl; auto using see_NoDup. Qed.

Lemma foldl_see_elem_of (l seen : list string) y :
  y ∈ foldl see seen l ↔ y ∈ seen ∨ y ∈ l.
Proof.
  revert seen. induction l as [|x l IH]; intros seen; simpl.
  - set_solver.
  - rewrite IH, see_elem_of. set_solver.
Qed.

Lemma first_seen_NoDup l : NoDup (first_seen l).
Proof. apply foldl_see_NoDup, NoDup_nil_2. Qed.

Lemma first_seen_elem_of l y : y ∈ first_seen l ↔ y ∈ l.
Proof. unfold first_seen. rewrite foldl_see_elem_of. set_solver. Qed.

Lemma assign_all_keys kvs d :
  dict.keys (assign_all d kvs) = foldl see (dict.keys d) kvs.*1.
Proof.
  revert d. induction kvs as [|[k v] kvs IH]; intros d; simpl; [done|].
  unfold assign_all in *. simpl. by rewrite IH, dict_keys_setitem.
Qed.

Lemma assign_all_get_last kvs d pre post k v :
  kvs = (pre ++ (k, v) :: post)%list → k ∉ post.*1 →
  dict.get (assign_all d kvs) k = Some v.
Proof.
  intros -> Hpost. unfold assign_all. rewrite foldl_app. simpl.
  set (d1 := dict.setitem _ k v).
  assert (Hd1 : dict.get d1 k = Some v).
  { unfold d1. rewrite dict_get_setitem. by rewrite bool_decide_eq_true_2. }
  clearbody d1. revert d1 Hd1.
  induction post as [|[k' v'] post IH]; intros d1 Hd1; simpl; [done|].
  apply IH; [set_solver|].
  rewrite dict_get_setitem. rewrite bool_decide_eq_false_2; [done | set_solver].
Qed.

Lemma NoDup_keys_count (d : dict.t) k :
  NoDup (dict.keys d) → k ∈ dict.keys d →
  length (filter (λ kv, kv.1 = k) (dict.items d)) = 1.
Proof.
  unfold dict.keys, dict.items. induction d as [|[k' v'] d IH]; simpl.
  - intros _ H. by apply elem_of_nil in H.
  - intros Hnd Hin. apply NoDup_cons in Hnd as [Hk' Hnd].
    rewrite filter_cons. simpl. case_decide as Hk; simpl.
    + subst k'. f_equal. apply length_zero_iff_nil, elem_of_nil_inv.
      intros [k1 v1] [Heq Hkv]%list_elem_of_filter. simpl in Heq.
      subst k1. apply Hk'. apply list_elem_of_fmap. by exists (k, v1).
    + apply IH; [done | set_solver].
Qed.

(** ** The monad *)

Lemma bind_unfold {A B} (m : M A) (f : A → M B) w :
  (m ≫= f) w =
  match m w with
  | (w', Return a) => f a w'
  | (w', Raise e) => (w', Raise e)
  end.
Proof. reflexivity. Qed.

Lemma bind_return {A B} (m : M A) (f : A → M B) w w' a :
  m w = (w', Return a) → (m ≫= f) w = f a w'.
Proof. intros H. by rewrite bind_unfold, H. Qed.

Lemma bind_raise {A B} (m : M A) (f : A → M B) w w' e :
  m w = (w', Raise e) → (m ≫= f) w = (w', Raise e).
Proof. intros H. by rewrite bind_unfold, H. Qed.

(** ** The loop over the records *)

Lemma categorize_error_linkage error w :
  isinstance_BrokenLinkage error = true →
  LinkErrorHandler.categorize_error error w =
    (mkWorld (classified (self w) error) (stderr w), Return ()).
Proof. by destruct error, w. Qed.

Lemma categorize_error_other n w :
  LinkErrorHandler.categorize_error (OtherError n) w =
    (mkWorld (set_names ({[ n ]} ∪ names (self w)) (self w)) (stderr w),
     Raise (AssertionError None)).
Proof. by destruct w. Qed.

Lemma loop_linkage errs w :
  all_linkage errs →
  for_each LinkErrorHandler.categorize_error errs w =
    (mkWorld (foldl classified (self w) errs) (stderr w), Return ()).
Proof.
  intros Hall. revert w. induction Hall as [|e errs He _ IH]; intros w.
  - by destruct w.
  - cbn [for_each foldl].
    erewrite bind_return by by apply categorize_error_linkage.
    by rewrite IH.
Qed.

Lemma loop_returns errs w w' :
  for_each LinkErrorHandler.categorize_error errs w = (w', Return ()) →
  all_linkage errs.
Proof.
  revert w. induction errs as [|e errs IH]; intros w H; [by constructor|].
  cbn [for_each] in H. rewrite bind_unfold in H.
  destruct e as [n|n t|n].
  - rewrite categorize_error_linkage in H by done. constructor; [done | by eapply IH].
  - rewrite categorize_error_linkage in H by done. constructor; [done | by eapply IH].
  - by rewrite categorize_error_other in H.
Qed.

Lemma loop_stderr errs w :
  stderr (for_each LinkErrorHandler.categorize_error errs w).1 = stderr w.
Proof.
  revert w. induction errs as [|e errs IH]; intros w; [done|].
  cbn [for_each]. rewrite bind_unfold. destruct e as [n|n t|n].
  - rewrite categorize_error_linkage by done. by rewrite IH.
  - rewrite categorize_error_linkage by done. by rewrite IH.
  - by rewrite categorize_error_other.
Qed.

Lemma classified_names errs h :
  names (foldl classified h errs) =
    list_to_set (dependent_library_name <$> errs) ∪ names h.
Proof.
  revert h. induction errs as [|e errs IH]; intros h; csimpl.
  - set_solver.
  - rewrite IH. unfold classified. destruct e; simpl; set_solver.
Qed.

Lemma classified_broken errs h :
  all_linkage errs →
  broken (foldl classified h errs) = list_to_set (broken_names errs) ∪ broken h.
Proof.
  intros Hall. revert h. induction Hall as [|e errs He _ IH]; intros h; csimpl.
  - set_solver.
  - rewrite IH. unfold classified, broken_names. destruct e; csimpl; try done; set_solver.
Qed.

Lemma classified_extern errs h :
  extern (foldl classified h errs) = assign_all (extern h) (external_records errs).
Proof.
  revert h. induction errs as [|e errs IH]; intros h; csimpl; [done|].
  rewrite IH. unfold classified, external_records. by destruct e.
Qed.

Lemma classified_frame errs h :
  let h' := foldl classified h errs in
  metadata h' = metadata h ∧ exception h' = exception h ∧ recipes h' = recipes h ∧
  ignore_link_errors h' = ignore_link_errors h ∧ errors h' = errors h ∧
  new_library_recipe_needed h' = new_library_recipe_needed h ∧
  recipe_needs_build_dependency_added h' = recipe_needs_build_dependency_added h ∧
  error_messages h' = error_messages h.
Proof.
  revert h. induction errs as [|e errs IH]; intros h; simpl; [done|].
  destruct (IH (classified h e)) as (-> & -> & -> & -> & -> & -> & -> & ->).
  by destruct e.
Qed.

(** ** _categorize_errors as a whole *)

Lemma set_needed_twice v v' h :
  set_new_library_recipe_needed v (set_new_library_recipe_needed v' h) =
  set_new_library_recipe_needed v h.
Proof. by destruct h. Qed.

Lemma append_paths (items : list (string * string)) w :
  for_each
    (λ '(name, path),
       update (λ h, set_new_library_recipe_needed
                      (new_library_recipe_needed h ++ [path])%list h))
    items w =
  (mkWorld (set_new_library_recipe_needed
              (new_library_recipe_needed (self w) ++ items.*2)%list (self w))
           (stderr w), Return ()).
Proof.
  revert w. induction items as [|[n p] items IH]; intros [h out]; csimpl.
  - rewrite app_nil_r. by destruct h.
  - rewrite bind_unfold. unfold update at 1. cbn [self stderr].
    rewrite IH. cbn [self stderr]. rewrite set_needed_twice.
    do 2 f_equal. destruct h; simpl. by rewrite <- app_assoc.
Qed.

Lemma categorize_linkage w :
  all_linkage (errors (self w)) →
  LinkErrorHandler.categorize w =
    let h := scanned w in
    if bool_decide (overlap h = ∅)
    then (mkWorld (set_new_library_recipe_needed
                     (new_library_recipe_needed h ++ dict.values (extern h))%list h)
                  (stderr w), Return ())
    else (mkWorld h (stderr w),
          Raise (AssertionError (Some (overlap h, dict.keys (extern h), broken h)))).
Proof.
  intros Hall. unfold LinkErrorHandler.categorize.
  rewrite bind_unfold. unfold read at 1.
  rewrite bind_unfold, (loop_linkage _ _ Hall).
  fold (scanned w). cbn zeta.
  rewrite bind_unfold. unfold read at 1. cbn [self].
  rewrite bind_unfold. unfold read at 1. cbn [self].
  rewrite bind_unfold. unfold LinkErrorHandler.assert_disjoint, assert.
  fold (overlap (scanned w)).
  case_bool_decide; [|done].
  unfold mret, M_ret. rewrite bind_unfold. unfold read. cbn [self].
  by rewrite append_paths.
Qed.

Lemma categorize_returns w w' :
  LinkErrorHandler.categorize w = (w', Return ()) → all_linkage (errors (self w)).
Proof.
  unfold LinkErrorHandler.categorize.
  rewrite bind_unfold. unfold read at 1. rewrite bind_unfold.
  destruct (for_each _ _ w) as [w1 [[]|e]] eqn:Hloop; [|done].
  intros _. by eapply loop_returns.
Qed.

Lemma categorize_stderr w : stderr (LinkErrorHandler.categorize w).1 = stderr w.
Proof.
  unfold LinkErrorHandler.categorize.
  rewrite bind_unfold. unfold read at 1. rewrite bind_unfold.
  pose proof (loop_stderr (errors (self w)) w) as Hout.
  destruct (for_each _ _ w) as [w1 [[]|e]] eqn:Hloop; [|done]. simpl in Hout.
  rewrite bind_unfold. unfold read at 1.
  rewrite bind_unfold. unfold read at 1.
  rewrite bind_unfold. unfold LinkErrorHandler.assert_disjoint, assert.
  case_bool_decide; [|done].
  unfold mret, M_ret. rewrite bind_unfold. unfold read.
  by rewrite append_paths.
Qed.

(** ** _process_errors *)

Lemma process_unfold set_order w :
  LinkErrorHandler.process set_order w =
    let msgs := messages set_order (self w) in
    if bool_decide (msgs ≠ [])
    then (mkWorld (set_error_messages msgs (self w))
                  (stderr w ++ [join nl msgs +:+ nl])%list, Return ())
    else (w, Raise (AssertionError None)).
Proof.
  destruct w as [h out]. unfold LinkErrorHandler.process, messages.
  rewrite bind_unfold. unfold read at 1. cbn [self stderr].
  rewrite bind_unfold. unfold read at 1. cbn [self stderr].
  by destruct (bool_decide (new_library_recipe_needed h ≠ [])),
    (bool_decide (broken h ≠ ∅)).
Qed.

(** ** A handler that has just been built *)

Section fresh_handler.

Variables (md rc : PyObject) (errs : list LinkError) (ignore : bool).
Variable out : list string.

Let w0 : World := fresh md errs rc ignore out.
Let h1 : Handler := scanned w0.

Lemma scanned_fresh_names :
  names h1 = list_to_set (dependent_library_name <$> errs).
Proof. unfold h1, scanned. simpl. rewrite classified_names. simpl. set_solver. Qed.

Lemma scanned_fresh_broken :
  all_linkage errs → broken h1 = list_to_set (broken_names errs).
Proof.
  intros Hall. unfold h1, scanned. simpl. rewrite classified_broken by done.
  simpl. set_solver.
Qed.

Lemma scanned_fresh_extern :
  extern h1 = assign_all dict.empty (external_records errs).
Proof. unfold h1, scanned. simpl. by rewrite classified_extern. Qed.

Lemma scanned_fresh_keys :
  dict.keys (extern h1) = first_seen (external_names errs).
Proof. by rewrite scanned_fresh_extern, assign_all_keys. Qed.

Lemma scanned_fresh_needed : new_library_recipe_needed h1 = [].
Proof.
  unfold h1, scanned.
  by destruct (classified_frame (errors (self w0)) (self w0))
    as (_ & _ & _ & _ & _ & -> & _).
Qed.

Lemma scanned_fresh_ignore : ignore_link_errors h1 = ignore.
Proof.
  unfold h1, scanned.
  by destruct (classified_frame (errors (self w0)) (self w0))
    as (_ & _ & _ & -> & _).
Qed.

Lemma scanned_fresh_overlap :
  all_linkage errs → overlap h1 = ∅ ↔ no_overlap errs.
Proof.
  intros Hall. unfold overlap, no_overlap.
  rewrite scanned_fresh_broken, scanned_fresh_keys by done.
  split.
  - intros Hempty n Hb He.
    assert (n ∈ (∅ : gset string)) as Hn; [|set_solver].
    rewrite <- Hempty. apply elem_of_intersection. split.
    + by apply elem_of_list_to_set, first_seen_elem_of.
    + by apply elem_of_list_to_set.
  - intros Hno. apply set_eq. intros n. split; [|set_solver].
    intros [He Hb]%elem_of_intersection.
    rewrite elem_of_list_to_set, first_seen_elem_of in He.
    rewrite elem_of_list_to_set in Hb. by destruct (Hno n).
Qed.

(** what a run of [_categorize_errors] that returns has done *)
Lemma categorize_fresh_inv w' :
  LinkErrorHandler.categorize w0 = (w', Return ()) →
  all_linkage errs ∧ overlap h1 = ∅ ∧
  w' = mkWorld (set_new_library_recipe_needed (dict.values (extern h1)) h1) out.
Proof.
  intros H. pose proof (categorize_returns _ _ H) as Hall.
  rewrite categorize_linkage in H by done. cbn zeta in H. fold h1 in H.
  rewrite scanned_fresh_needed in H.
  case_bool_decide; [|done]. by injection H as <-.
Qed.

Lemma categorize_fresh_ok :
  all_linkage errs → no_overlap errs →
  LinkErrorHandler.categorize w0 =
    (mkWorld (set_new_library_recipe_needed (dict.values (extern h1)) h1) out,
     Return ()).
Proof.
  intros Hall Hno. rewrite categorize_linkage by done. cbn zeta. fold h1.
  rewrite scanned_fresh_needed.
  rewrite bool_decide_eq_true_2; [done | by apply scanned_fresh_overlap].
Qed.

Lemma categorize_fresh_clash :
  all_linkage errs → ¬ no_overlap errs →
  LinkErrorHandler.categorize w0 =
    (mkWorld h1 out,
     Raise (AssertionError (Some (overlap h1, dict.keys (extern h1), broken h1)))).
Proof.
  intros Hall Hno. rewrite categorize_linkage by done. cbn zeta. fold h1.
  rewrite bool_decide_eq_false_2; [done | by rewrite scanned_fresh_overlap].
Qed.

End fresh_handler.

(** ** The input, seen as names *)

Lemma linkage_names errs n :
  all_linkage errs →
  n ∈ dependent_library_name <$> errs ↔
  n ∈ broken_names errs ∨ n ∈ external_names errs.
Proof.
  unfold external_names, external_records, broken_names.
  induction 1 as [|e errs He _ IH]; csimpl; [set_solver|].
  destruct e; csimpl; try done; set_solver.
Qed.

Lemma external_records_app pre post :
  external_records (pre ++ post) = (external_records pre ++ external_records post)%list.
Proof. apply omap_app. Qed.

Lemma external_names_elem_of errs n :
  n ∈ external_names errs ↔ ∃ t, ExternalLinkage n t ∈ errs.
Proof.
  unfold external_names, external_records. rewrite list_elem_of_fmap. split.
  - intros ([n' t] & -> & Hin). apply list_elem_of_omap in Hin as (e & He & Heq).
    destruct e; simplify_eq. by eexists.
  - intros [t Hin]. exists (n, t). split; [done|].
    apply list_elem_of_omap. by exists (ExternalLinkage n t).
Qed.

Lemma first_seen_length (l : list string) :
  length (first_seen l) = size (list_to_set l : gset string).
Proof.
  rewrite <- (size_list_to_set (C := gset string) (first_seen l))
    by apply first_seen_NoDup.
  f_equal. apply set_eq. intros x.
  by rewrite !elem_of_list_to_set, first_seen_elem_of.
Qed.

Lemma dict_get_item (d : dict.t) :
  NoDup (dict.keys d) → Forall (λ kv, dict.get d kv.1 = Some kv.2) (dict.items d).
Proof.
  unfold dict.keys, dict.items. induction d as [|[k v] d IH]; csimpl; [done|].
  intros [Hk Hnd]%NoDup_cons. constructor.
  - simpl. by rewrite bool_decide_eq_true_2.
  - specialize (IH Hnd). rewrite Forall_forall in IH |- *.
    intros [k' v'] Hin. simpl. rewrite bool_decide_eq_false_2; [by apply (IH (k', v'))|].
    intros ->. apply Hk, list_elem_of_fmap. by exists (k', v').
Qed.

Lemma dict_keys_values (d : dict.t) :
  NoDup (dict.keys d) →
  Forall2 (λ k v, dict.get d k = Some v) (dict.keys d) (dict.values d).
Proof.
  intros Hnd. unfold dict.keys, dict.values. apply Forall2_fmap.
  apply Forall_Forall2_diag, dict_get_item, Hnd.
Qed.

(** * The properties *)

(** C1: once [_categorize_errors] has returned on a handler that was just
    built, [names] is the union of [broken] and the keys of [extern], and
    [broken] shares no name with the keys of [extern]. *)
Theorem categorize_names_partition md errs rc ignore out w' :
  LinkErrorHandler.categorize (fresh md errs rc ignore out) = (w', Return ()) →
  names (self w') =
    broken (self w') ∪ list_to_set (dict.keys (extern (self w'))) ∧
  broken (self w') ## (list_to_set (dict.keys (extern (self w'))) : gset string).
Proof.
  intros (Hall & Hov & ->)%categorize_fresh_inv. cbn [self].
  cbn [names broken extern set_new_library_recipe_needed].
  split.
  - rewrite scanned_fresh_names, scanned_fresh_broken, scanned_fresh_keys by done.
    apply set_eq. intros n.
    rewrite elem_of_union, !elem_of_list_to_set, first_seen_elem_of.
    by apply linkage_names.
  - unfold overlap in Hov. set_solver.
Qed.

Lemma categorize_names_partition_witness :
  LinkErrorHandler.categorize (fresh PyNone mixed PyNone false []) =
    (mixed_done, Return ()) ∧
  names (self mixed_done) =
    broken (self mixed_done) ∪ list_to_set (dict.keys (extern (self mixed_done))) ∧
  broken (self mixed_done) ##
    (list_to_set (dict.keys (extern (self mixed_done))) : gset string).
Proof.
  assert (H : LinkErrorHandler.categorize (fresh PyNone mixed PyNone false []) =
              (mixed_done, Return ())) by (vm_compute; reflexivity).
  split; [exact H|].
  exact (categorize_names_partition PyNone mixed PyNone false [] mixed_done H).
Defined.

(** C5: once [_categorize_errors] has returned, [new_library_recipe_needed]
    is as long as [extern] and holds the values of [extern] in the order of
    the mapping, which is the order in which the external names were first
    seen in the input. *)
Theorem categorize_recipes_follow_extern md errs rc ignore out w' :
  LinkErrorHandler.categorize (fresh md errs rc ignore out) = (w', Return ()) →
  length (new_library_recipe_needed (self w')) = dict.len (extern (self w')) ∧
  new_library_recipe_needed (self w') = dict.values (extern (self w')) ∧
  dict.keys (extern (self w')) = first_seen (external_names errs).
Proof.
  intros (Hall & Hov & ->)%categorize_fresh_inv. cbn [self].
  cbn [new_library_recipe_needed extern set_new_library_recipe_needed].
  split_and!.
  - unfold dict.values, dict.len. by rewrite length_fmap.
  - done.
  - apply scanned_fresh_keys.
Qed.

Lemma repeated_returns :
  LinkErrorHandler.categorize (fresh PyNone repeated PyNone false []) =
    (repeated_done, Return ()).
Proof. vm_compute. reflexivity. Defined.

Lemma categorize_recipes_follow_extern_witness :
  LinkErrorHandler.categorize (fresh PyNone repeated PyNone false []) =
    (repeated_done, Return ()) ∧
  length (new_library_recipe_needed (self repeated_done)) =
    dict.len (extern (self repeated_done)) ∧
  new_library_recipe_needed (self repeated_done) =
    dict.values (extern (self repeated_done)) ∧
  dict.keys (extern (self repeated_done)) = first_seen (external_names repeated).
Proof.
  split; [exact repeated_returns|].
  exact (categorize_recipes_follow_extern PyNone repeated PyNone false []
           repeated_done repeated_returns).
Defined.

(** C9: when an external name comes up more than once, [extern] keeps one
    entry for it, with the target of the record seen last, and
    [new_library_recipe_needed] holds one path for each distinct external
    name: the value [extern] has for it, in first-seen order. *)
Theorem categorize_external_last_wins md errs rc ignore out w' :
  LinkErrorHandler.categorize (fresh md errs rc ignore out) = (w', Return ()) →
  (∀ pre n t post,
     errs = (pre ++ ExternalLinkage n t :: post)%list →
     (∀ t', ExternalLinkage n t' ∉ post) →
     dict.get (extern (self w')) n = Some t ∧
     length (filter (λ kv, kv.1 = n) (dict.items (extern (self w')))) = 1) ∧
  length (new_library_recipe_needed (self w')) =
    size (list_to_set (external_names errs) : gset string) ∧
  Forall2 (λ n p, dict.get (extern (self w')) n = Some p)
    (first_seen (external_names errs)) (new_library_recipe_needed (self w')).
Proof.
  intros (Hall & Hov & ->)%categorize_fresh_inv. cbn [self].
  cbn [new_library_recipe_needed extern set_new_library_recipe_needed].
  pose proof (scanned_fresh_keys md rc errs ignore out) as Hkeys.
  assert (Hnd : NoDup (dict.keys (extern (scanned (fresh md errs rc ignore out))))).
  { rewrite Hkeys. apply first_seen_NoDup. }
  split_and!.
  - intros pre n t post Herrs Hlast. split.
    + rewrite scanned_fresh_extern.
      eapply (assign_all_get_last _ _ (external_records pre) (external_records post)).
      * by rewrite Herrs, external_records_app.
      * intros Hin. apply (external_names_elem_of post n) in Hin as [t' Hin].
        by apply (Hlast t').
    + apply NoDup_keys_count; [done|]. rewrite Hkeys, first_seen_elem_of.
      apply external_names_elem_of. exists t. rewrite Herrs. set_solver.
  - unfold dict.values. rewrite length_fmap.
    rewrite <- first_seen_length, <- Hkeys. unfold dict.keys. by rewrite length_fmap.
  - rewrite <- Hkeys. by apply dict_keys_values.
Qed.

Lemma categorize_external_last_wins_witness :
  LinkErrorHandler.categorize (fresh PyNone repeated PyNone false []) =
    (repeated_done, Return ()) ∧
  dict.get (extern (self repeated_done)) "libbar.so" = Some "/usr/local/lib/libbar.so" ∧
  length (filter (λ kv, kv.1 = "libbar.so") (dict.items (extern (self repeated_done)))) = 1 ∧
  length (new_library_recipe_needed (self repeated_done)) = 2.
Proof.
  split; [exact repeated_returns|].
  destruct (categorize_external_last_wins PyNone repeated PyNone false []
              repeated_done repeated_returns) as (Hlast & Hlen & _).
  destruct (Hlast [ExternalLinkage "libbar.so" "/opt/libs/libbar.so";
                   ExternalLinkage "libz.so" "/usr/lib/libz.so"]
              "libbar.so" "/usr/local/lib/libbar.so" [] eq_refl) as [Hget Hone].
  { intros t' Hin. by apply elem_of_nil in Hin. }
  split_and!; [exact Hget | exact Hone |].
  rewrite Hlen. vm_compute. reflexivity.
Defined.

(** C3: one turn of the loop.  The name always goes into [names].  The test
    for [ExternalLinkage] comes first: a record that passes it has its target
    stored under its name in [extern] and leaves [broken] alone, though it
    is a [BrokenLinkage] too.  Any other record must be a [BrokenLinkage];
    then its name goes into [broken], otherwise the assertion fails. *)
Theorem categorize_error_cases error w :
  let name := dependent_library_name error in
  let w' := (LinkErrorHandler.categorize_error error w).1 in
  let r := (LinkErrorHandler.categorize_error error w).2 in
  names (self w') = {[ name ]} ∪ names (self w) ∧
  match as_ExternalLinkage error with
  | Some actual_link_target =>
      isinstance_BrokenLinkage error = true ∧
      r = Return () ∧
      extern (self w') = dict.setitem (extern (self w)) name actual_link_target ∧
      dict.get (extern (self w')) name = Some actual_link_target ∧
      broken (self w') = broken (self w)
  | None =>
      extern (self w') = extern (self w) ∧
      if isinstance_BrokenLinkage error
      then r = Return () ∧ broken (self w') = {[ name ]} ∪ broken (self w)
      else r = Raise (AssertionError None) ∧ broken (self w') = broken (self w)
  end.
Proof.
  destruct error as [n|n t|n]; cbn zeta;
    rewrite ?categorize_error_linkage, ?categorize_error_other by done;
    destruct w as [h out]; split_and!; try done.
  cbn. rewrite dict_get_setitem. by rewrite bool_decide_eq_true_2.
Qed.

(** C7: [_finalize] appends one chunk to the diagnostic stream, the fixed
    [final_message] and a line break, whatever [self] holds; the message
    names the page on link errors and the option [--ignore-link-errors]. *)
Theorem finalize_writes_final_message w :
  BaseLinkErrorHandler._finalize w =
    (mkWorld (self w) (stderr w ++ [final_message +:+ nl])%list, Return ()) ∧
  (∃ pre post,
     final_message =
       pre +:+ "http://conda.pydata.org/docs/link-errors.html" +:+ post) ∧
  (∃ pre post, final_message = pre +:+ "--ignore-link-errors" +:+ post).
Proof.
  split_and!.
  - done.
  - exists (nl +:+ "See "),
      (" for more info." +:+ nl +:+ nl +:+
       "Tip: run `conda build --ignore-link-errors` to ignore these errors and" +:+ nl +:+
       "build the package anyway.  Note that the resulting package will not work" +:+ nl +:+
       "if you install it on a different system *unless* that system also has all" +:+ nl +:+
       "of the libraries listed above installed." +:+ nl).
    vm_compute. reflexivity.
  - exists (nl +:+ "See http://conda.pydata.org/docs/link-errors.html for more info." +:+
            nl +:+ nl +:+ "Tip: run `conda build "),
      ("` to ignore these errors and" +:+ nl +:+
       "build the package anyway.  Note that the resulting package will not work" +:+ nl +:+
       "if you install it on a different system *unless* that system also has all" +:+ nl +:+
       "of the libraries listed above installed." +:+ nl).
    vm_compute. reflexivity.
Qed.

(** C10: on an empty collection [_categorize_errors] returns and leaves every
    field empty, [_process_errors] fails its assertion, and so [handle] ends
    in that [AssertionError] with nothing written and the handler as it was
    built: [_finalize] and [sys.exit] are not reached. *)
Theorem handle_empty_collection set_order md rc ignore out :
  let w0 := fresh md [] rc ignore out in
  LinkErrorHandler.categorize w0 = (w0, Return ()) ∧
  names (self w0) = ∅ ∧ broken (self w0) = ∅ ∧ extern (self w0) = dict.empty ∧
  new_library_recipe_needed (self w0) = [] ∧
  LinkErrorHandler.process set_order w0 = (w0, Raise (AssertionError None)) ∧
  LinkErrorHandler.handle set_order w0 = (w0, Raise (AssertionError None)).
Proof.
  cbn zeta. by split_and!.
Qed.

(** ** Two handlers side by side *)

Lemma categorize_error_sim error wa wb :
  same_classification (self wa) (self wb) →
  (LinkErrorHandler.categorize_error error wa).2 =
    (LinkErrorHandler.categorize_error error wb).2 ∧
  same_classification (self (LinkErrorHandler.categorize_error error wa).1)
                      (self (LinkErrorHandler.categorize_error error wb).1).
Proof.
  intros (He & Hn & Hb & Hx & Hr).
  destruct error as [n|n t|n];
    rewrite ?categorize_error_linkage, ?categorize_error_other by done;
    destruct wa as [ha outa], wb as [hb outb]; cbn in *;
    unfold same_classification; cbn; by rewrite ?Hn, ?Hb, ?Hx.
Qed.

Lemma loop_sim errs wa wb :
  same_classification (self wa) (self wb) →
  (for_each LinkErrorHandler.categorize_error errs wa).2 =
    (for_each LinkErrorHandler.categorize_error errs wb).2 ∧
  same_classification
    (self (for_each LinkErrorHandler.categorize_error errs wa).1)
    (self (for_each LinkErrorHandler.categorize_error errs wb).1).
Proof.
  revert wa wb. induction errs as [|e errs IH]; intros wa wb Hsame; [done|].
  cbn [for_each]. rewrite !bind_unfold.
  destruct (categorize_error_sim e wa wb Hsame) as [Hr Hs].
  destruct (LinkErrorHandler.categorize_error e wa) as [wa1 ra],
           (LinkErrorHandler.categorize_error e wb) as [wb1 rb].
  cbn in Hr, Hs. subst rb. destruct ra as [[]|ex]; [by apply IH | done].
Qed.

Lemma loop_raise_kind errs w w' e :
  for_each LinkErrorHandler.categorize_error errs w = (w', Raise e) →
  e = AssertionError None.
Proof.
  revert w. induction errs as [|x errs IH]; intros w; [done|].
  cbn [for_each]. rewrite bind_unfold. destruct x as [n|n t|n];
    rewrite ?categorize_error_linkage, ?categorize_error_other by done.
  - apply IH.
  - apply IH.
  - by intros [= _ <-].
Qed.

Lemma categorize_loop_raise w w1 e :
  for_each LinkErrorHandler.categorize_error (errors (self w)) w = (w1, Raise e) →
  LinkErrorHandler.categorize w = (w1, Raise e).
Proof.
  intros H. unfold LinkErrorHandler.categorize.
  rewrite bind_unfold. unfold read at 1. by rewrite bind_unfold, H.
Qed.

Lemma categorize_not_linkage w :
  ¬ all_linkage (errors (self w)) →
  ∃ w1, LinkErrorHandler.categorize w = (w1, Raise (AssertionError None)) ∧
        for_each LinkErrorHandler.categorize_error (errors (self w)) w =
          (w1, Raise (AssertionError None)).
Proof.
  intros Hnot.
  destruct (for_each LinkErrorHandler.categorize_error (errors (self w)) w)
    as [w1 [[]|e]] eqn:Hloop.
  - destruct Hnot. by eapply loop_returns.
  - pose proof (loop_raise_kind _ _ _ _ Hloop) as ->.
    exists w1. split; [by apply categorize_loop_raise | done].
Qed.

Lemma classified_sim errs ha hb :
  same_classification ha hb →
  same_classification (foldl classified ha errs) (foldl classified hb errs).
Proof.
  revert ha hb. induction errs as [|e errs IH]; intros ha hb Hsame; [done|].
  cbn [foldl]. apply IH. destruct Hsame as (He & Hn & Hb & Hx & Hr).
  unfold same_classification, classified.
  destruct e; destruct ha, hb; cbn in *; by subst.
Qed.

Lemma categorize_sim wa wb :
  same_classification (self wa) (self wb) →
  (LinkErrorHandler.categorize wa).2 = (LinkErrorHandler.categorize wb).2 ∧
  same_classification (self (LinkErrorHandler.categorize wa).1)
                      (self (LinkErrorHandler.categorize wb).1).
Proof.
  intros Hsame. pose proof Hsame as (He & _).
  destruct (decide (all_linkage (errors (self wa)))) as [Hall|Hnot].
  - rewrite (categorize_linkage wa Hall).
    rewrite (categorize_linkage wb) by by rewrite <- He.
    cbn zeta. unfold scanned. rewrite <- He.
    pose proof (classified_sim (errors (self wa)) _ _ Hsame)
      as (He' & Hn' & Hb' & Hx' & Hr').
    unfold overlap. rewrite <- Hx', <- Hb', <- Hr'.
    case_bool_decide; cbn; unfold same_classification; cbn;
      by rewrite ?He', ?Hn'.
  - destruct (categorize_not_linkage wa Hnot) as (wa1 & -> & Ha).
    destruct (categorize_not_linkage wb) as (wb1 & -> & Hb);
      [by rewrite <- He|].
    split; [done|]. cbn.
    pose proof (loop_sim (errors (self wa)) wa wb Hsame) as [_ Hs].
    rewrite Ha in Hs. rewrite He, Hb in Hs. exact Hs.
Qed.

(** C8: two handlers built from the same collection of records, whatever
    their metadata, recipes, flag and diagnostic stream, come out of
    [_categorize_errors] with the same outcome and the same [names],
    [broken], [extern] and [new_library_recipe_needed]; each of them starts
    with these fields empty. *)
Theorem categorize_same_input_same_result errs md1 rc1 ig1 out1 md2 rc2 ig2 out2 :
  let w1 := fresh md1 errs rc1 ig1 out1 in
  let w2 := fresh md2 errs rc2 ig2 out2 in
  let w1' := (LinkErrorHandler.categorize w1).1 in
  let w2' := (LinkErrorHandler.categorize w2).1 in
  (names (self w1) = ∅ ∧ broken (self w1) = ∅ ∧ extern (self w1) = dict.empty ∧
   new_library_recipe_needed (self w1) = []) ∧
  (LinkErrorHandler.categorize w1).2 = (LinkErrorHandler.categorize w2).2 ∧
  names (self w1') = names (self w2') ∧
  broken (self w1') = broken (self w2') ∧
  extern (self w1') = extern (self w2') ∧
  new_library_recipe_needed (self w1') = new_library_recipe_needed (self w2').
Proof.
  cbn zeta. split; [done|].
  destruct (categorize_sim (fresh md1 errs rc1 ig1 out1) (fresh md2 errs rc2 ig2 out2))
    as (Hr & _ & Hn & Hb & Hx & Hneed); [done|].
  by split_and!.
Qed.

(** ** From the categories to the messages *)

Lemma broken_names_elem_of errs n :
  n ∈ broken_names errs ↔ BrokenLinkage n ∈ errs.
Proof.
  unfold broken_names. rewrite list_elem_of_omap. split.
  - intros (e & He & Heq). destruct e; by simplify_eq.
  - intros Hin. by exists (BrokenLinkage n).
Qed.

Lemma messages_fresh set_order md errs rc ignore out :
  all_linkage errs →
  let h := scanned (fresh md errs rc ignore out) in
  messages set_order
    (set_new_library_recipe_needed (dict.values (extern h)) h) =
  report set_order errs.
Proof.
  intros Hall. cbn zeta. unfold messages, report.
  cbn [new_library_recipe_needed broken set_new_library_recipe_needed].
  by rewrite scanned_fresh_extern, scanned_fresh_broken.
Qed.

Lemma report_nonempty set_order errs :
  errs ≠ [] → all_linkage errs → report set_order errs ≠ [].
Proof.
  intros Hne Hall. unfold report. cbn zeta.
  destruct errs as [|e errs]; [done|].
  apply Forall_cons in Hall as [He _]. destruct e as [n|n t|n]; [| |done].
  - rewrite (bool_decide_eq_true_2 (_ ≠ ∅)).
    + by intros [_ ?]%app_eq_nil.
    + intros Hempty.
      assert (n ∈ (∅ : gset string)) as Hn; [|set_solver].
      rewrite <- Hempty. apply elem_of_list_to_set, broken_names_elem_of. set_solver.
  - rewrite (bool_decide_eq_true_2 (_ ≠ [])).
    + by intros [? _]%app_eq_nil.
    + intros Hempty.
      assert (n ∈ dict.keys (assign_all dict.empty
                               (external_records (ExternalLinkage n t :: errs)))) as Hn.
      { rewrite assign_all_keys. apply first_seen_elem_of.
        apply (external_names_elem_of (ExternalLinkage n t :: errs)).
        exists t. set_solver. }
      unfold dict.values, dict.keys in *.
      apply fmap_nil_inv in Hempty. rewrite Hempty in Hn. by apply elem_of_nil in Hn.
Qed.

(** C4: on a collection that is not empty, once [_categorize_errors] has
    returned, [_process_errors] returns too; the messages it has made are
    not empty, go to the diagnostic stream as one chunk, joined by line
    breaks and closed by one, and stay on the handler as [error_messages]. *)
Theorem process_keeps_messages set_order md errs rc ignore out w1 :
  errs ≠ [] →
  LinkErrorHandler.categorize (fresh md errs rc ignore out) = (w1, Return ()) →
  ∃ msgs w2,
    LinkErrorHandler.process set_order w1 = (w2, Return ()) ∧
    msgs ≠ [] ∧
    error_messages (self w2) = Some msgs ∧
    stderr w2 = (stderr w1 ++ [join nl msgs +:+ nl])%list.
Proof.
  intros Hne (Hall & Hov & ->)%categorize_fresh_inv.
  rewrite process_unfold. cbn zeta. cbn [self stderr].
  rewrite messages_fresh by done.
  pose proof (report_nonempty set_order errs Hne Hall) as Hmsgs.
  rewrite bool_decide_eq_true_2 by done.
  by eexists _, _.
Qed.

Lemma process_keeps_messages_witness :
  mixed ≠ [] ∧
  LinkErrorHandler.categorize (fresh PyNone mixed PyNone false []) =
    (mixed_done, Return ()) ∧
  ∃ msgs w2,
    LinkErrorHandler.process elements mixed_done = (w2, Return ()) ∧
    msgs ≠ [] ∧
    error_messages (self w2) = Some msgs ∧
    stderr w2 = (stderr mixed_done ++ [join nl msgs +:+ nl])%list.
Proof.
  assert (Hne : mixed ≠ []) by discriminate.
  assert (H : LinkErrorHandler.categorize (fresh PyNone mixed PyNone false []) =
              (mixed_done, Return ())) by (vm_compute; reflexivity).
  split; [exact Hne|]. split; [exact H|].
  exact (process_keeps_messages elements PyNone mixed PyNone false []
           mixed_done Hne H).
Defined.

(** ** handle *)

Lemma handle_fresh set_order md errs rc ignore out :
  errs ≠ [] → all_linkage errs → no_overlap errs →
  ∃ h,
    LinkErrorHandler.handle set_order (fresh md errs rc ignore out) =
      (mkWorld h (out ++ [join nl (report set_order errs) +:+ nl;
                          final_message +:+ nl])%list,
       if ignore then Return () else Raise (SystemExit 1)) ∧
    error_messages h = Some (report set_order errs).
Proof.
  intros Hne Hall Hno.
  unfold LinkErrorHandler.handle, BaseLinkErrorHandler.handle.
  cbn [_categorize_errors _process_errors LinkErrorHandler.methods].
  erewrite bind_return by by apply categorize_fresh_ok.
  rewrite bind_unfold, process_unfold. cbn zeta. cbn [self stderr].
  rewrite messages_fresh by done.
  rewrite bool_decide_eq_true_2 by by apply report_nonempty.
  rewrite bind_unfold. unfold BaseLinkErrorHandler._finalize, stderr_write.
  cbn [self stderr]. rewrite bind_unfold. unfold read. cbn [self].
  cbn [ignore_link_errors set_error_messages set_new_library_recipe_needed].
  rewrite scanned_fresh_ignore. rewrite <- app_assoc. cbn [app].
  eexists. split; [by destruct ignore|done].
Qed.

(** C2, as stated, fails: [clash] is not empty, yet with the flag set
    [handle] does not return but ends in the [AssertionError] of
    [assert_disjoint], and with the flag unset it ends in the same error,
    not in [SystemExit], with nothing written, [final_message] included. *)
Lemma handle_clash_neither_returns_nor_exits :
  clash ≠ [] ∧
  LinkErrorHandler.handle elements (fresh PyNone clash PyNone true []) =
    (mkWorld (scanned (fresh PyNone clash PyNone true [])) [],
     Raise (AssertionError (Some ({[ "liba.so" ]}, ["liba.so"], {[ "liba.so" ]})))) ∧
  LinkErrorHandler.handle elements (fresh PyNone clash PyNone false []) =
    (mkWorld (scanned (fresh PyNone clash PyNone false [])) [],
     Raise (AssertionError (Some ({[ "liba.so" ]}, ["liba.so"], {[ "liba.so" ]})))).
Proof. split_and!; [discriminate | vm_compute; reflexivity ..]. Qed.

(** C2, amended: on a collection that is not empty, whose records are all
    [BrokenLinkage] or [ExternalLinkage] and in which no name is both, [handle]
    writes the messages and then [final_message]; after that it returns when
    the flag is set and ends in [SystemExit(1)] when it is not. *)
Theorem handle_outcome_by_flag set_order md errs rc out :
  errs ≠ [] → all_linkage errs → no_overlap errs →
  ∃ msgs ha hb,
    msgs ≠ [] ∧
    LinkErrorHandler.handle set_order (fresh md errs rc true out) =
      (mkWorld ha (out ++ [join nl msgs +:+ nl; final_message +:+ nl])%list,
       Return ()) ∧
    LinkErrorHandler.handle set_order (fresh md errs rc false out) =
      (mkWorld hb (out ++ [join nl msgs +:+ nl; final_message +:+ nl])%list,
       Raise (SystemExit 1)) ∧
    error_messages ha = Some msgs ∧ error_messages hb = Some msgs.
Proof.
  intros Hne Hall Hno.
  destruct (handle_fresh set_order md errs rc true out Hne Hall Hno) as (ha & Ha & Hma).
  destruct (handle_fresh set_order md errs rc false out Hne Hall Hno) as (hb & Hb & Hmb).
  exists (report set_order errs), ha, hb.
  split_and!; [by apply report_nonempty | done ..].
Qed.

Lemma mixed_all_linkage : all_linkage mixed.
Proof. repeat constructor. Defined.

Lemma mixed_no_overlap : no_overlap mixed.
Proof.
  intros n Hb He. cbn in Hb, He.
  apply list_elem_of_singleton in Hb. apply list_elem_of_singleton in He.
  rewrite Hb in He. discriminate.
Defined.

Lemma handle_outcome_by_flag_witness :
  mixed ≠ [] ∧ all_linkage mixed ∧ no_overlap mixed ∧
  ∃ msgs ha hb,
    msgs ≠ [] ∧
    LinkErrorHandler.handle elements (fresh PyNone mixed PyNone true []) =
      (mkWorld ha ([] ++ [join nl msgs +:+ nl; final_message +:+ nl])%list,
       Return ()) ∧
    LinkErrorHandler.handle elements (fresh PyNone mixed PyNone false []) =
      (mkWorld hb ([] ++ [join nl msgs +:+ nl; final_message +:+ nl])%list,
       Raise (SystemExit 1)) ∧
    error_messages ha = Some msgs ∧ error_messages hb = Some msgs.
Proof.
  assert (Hne : mixed ≠ []) by discriminate.
  split; [exact Hne|]. split; [exact mixed_all_linkage|].
  split; [exact mixed_no_overlap|].
  exact (handle_outcome_by_flag elements PyNone mixed PyNone []
           Hne mixed_all_linkage mixed_no_overlap).
Defined.

(** C6, as stated, fails: in [clash_and_stranger] one name is broken and
    external, yet what [handle] raises is the assertion on the class of a
    record, which carries no data, and not the one of [assert_disjoint]. *)
Lemma handle_clash_and_stranger :
  BrokenLinkage "liba.so" ∈ clash_and_stranger ∧
  ExternalLinkage "liba.so" "/opt/lib/liba.so" ∈ clash_and_stranger ∧
  (LinkErrorHandler.handle elements
     (fresh PyNone clash_and_stranger PyNone false [])).2 =
    Raise (AssertionError None).
Proof.
  split_and!; [unfold clash_and_stranger; set_solver .. | vm_compute; reflexivity].
Qed.

(** C6, amended: when one name is reported as broken and as external,
    [handle] ends in an [AssertionError] with nothing written to the
    diagnostic stream, so before any message and before [_finalize]; when all
    records are [BrokenLinkage] or [ExternalLinkage], the error is the one of
    [assert_disjoint] and carries the intersection, which holds that name,
    the keys of [extern] and [broken]. *)
Theorem handle_clash_aborts set_order md errs rc ignore out n t :
  BrokenLinkage n ∈ errs → ExternalLinkage n t ∈ errs →
  let res := LinkErrorHandler.handle set_order (fresh md errs rc ignore out) in
  stderr res.1 = out ∧
  (∃ args, res.2 = Raise (AssertionError args)) ∧
  (all_linkage errs →
   ∃ both,
     res.2 = Raise (AssertionError
                      (Some (both, dict.keys (extern (self res.1)),
                             broken (self res.1)))) ∧
     both = list_to_set (dict.keys (extern (self res.1))) ∩ broken (self res.1) ∧
     n ∈ both).
Proof.
  intros Hb He. cbn zeta.
  assert (Hclash : ¬ no_overlap errs).
  { intros Hno. apply (Hno n); [by apply broken_names_elem_of|].
    apply external_names_elem_of. by exists t. }
  unfold LinkErrorHandler.handle, BaseLinkErrorHandler.handle.
  cbn [_categorize_errors _process_errors LinkErrorHandler.methods].
  destruct (decide (all_linkage errs)) as [Hall|Hnot].
  - erewrite bind_raise by by apply categorize_fresh_clash.
    cbn [fst snd self stderr]. split_and!; [done | by eexists |].
    intros _. eexists. split_and!; [done | done |].
    unfold overlap. rewrite scanned_fresh_keys, scanned_fresh_broken by done.
    apply elem_of_intersection.
    rewrite !elem_of_list_to_set, first_seen_elem_of.
    split; [|by apply broken_names_elem_of].
    apply external_names_elem_of. by exists t.
  - destruct (categorize_not_linkage (fresh md errs rc ignore out))
      as (w1 & Hcat & _); [done|].
    pose proof (categorize_stderr (fresh md errs rc ignore out)) as Hout.
    rewrite Hcat in Hout. cbn in Hout.
    erewrite bind_raise by exact Hcat. cbn [fst snd].
    split_and!; [done | by eexists | done].
Qed.

Lemma clash_all_linkage : all_linkage clash.
Proof. repeat constructor. Defined.

Lemma handle_clash_aborts_witness :
  BrokenLinkage "liba.so" ∈ clash ∧
  ExternalLinkage "liba.so" "/opt/lib/liba.so" ∈ clash ∧
  stderr (LinkErrorHandler.handle elements
            (fresh PyNone clash PyNone false [])).1 = [] ∧
  ∃ both,
    (LinkErrorHandler.handle elements (fresh PyNone clash PyNone false [])).2 =
      Raise (AssertionError
               (Some (both,
                      dict.keys (extern (self (LinkErrorHandler.handle elements
                         (fresh PyNone clash PyNone false [])).1)),
                      broken (self (LinkErrorHandler.handle elements
                         (fresh PyNone clash PyNone false [])).1)))) ∧
    "liba.so" ∈ both.
Proof.
  assert (Hb : BrokenLinkage "liba.so" ∈ clash) by apply list_elem_of_here.
  assert (He : ExternalLinkage "liba.so" "/opt/lib/liba.so" ∈ clash)
    by apply list_elem_of_further, list_elem_of_here.
  split; [exact Hb|]. split; [exact He|].
  destruct (handle_clash_aborts elements PyNone clash PyNone false []
              "liba.so" "/opt/lib/liba.so" Hb He) as (Hout & _ & Hdisjoint).
  split; [exact Hout|].
  destruct (Hdisjoint clash_all_linkage) as (both & Hraise & _ & Hin).
  exists both. split; [exact Hraise | exact Hin].
Defined.

(** * Further properties *)

(** ** Strings *)

Lemma string_app_assoc (s1 s2 s3 : string) :
  (s1 +:+ s2) +:+ s3 = s1 +:+ s2 +:+ s3.
Proof.
  induction s1 as [|a s1 IH]; [done|].
  change (String a ((s1 +:+ s2) +:+ s3) = String a (s1 +:+ s2 +:+ s3)).
  by rewrite IH.
Qed.

Lemma string_app_nil_r (s : string) : s +:+ "" = s.
Proof.
  induction s as [|a s IH]; [done|].
  change (String a (s +:+ "") = String a s). by rewrite IH.
Qed.

Lemma contains_refl s : contains s s.
Proof. exists "", "". by rewrite string_app_nil_r. Qed.

Lemma contains_app_l s t sub : contains s sub → contains (s +:+ t) sub.
Proof.
  intros (pre & post & ->). exists pre, (post +:+ t).
  by rewrite !string_app_assoc.
Qed.

Lemma contains_app_r s t sub : contains t sub → contains (s +:+ t) sub.
Proof.
  intros (pre & post & ->). exists (s +:+ pre), post.
  by rewrite !string_app_assoc.
Qed.

Lemma contains_trans s t u : contains s t → contains t u → contains s u.
Proof.
  intros (pre & post & ->) Htu.
  by apply contains_app_r, contains_app_l.
Qed.

Lemma join_contains sep (l : list string) x : x ∈ l → contains (join sep l) x.
Proof.
  induction l as [|y l IH]; [by intros ?%elem_of_nil|].
  intros [->|Hin]%elem_of_cons.
  - destruct l; [apply contains_refl|]. apply contains_app_l, contains_refl.
  - destruct l as [|z l]; [by apply elem_of_nil in Hin|].
    change (contains (y +:+ sep +:+ join sep (z :: l)) x).
    by apply contains_app_r, contains_app_r, IH.
Qed.

(** ** When _categorize_errors returns, and with what *)

Lemma assign_all_get_origin recs (d : dict.t) n p :
  dict.get (assign_all d recs) n = Some p →
  (n, p) ∈ recs ∨ dict.get d n = Some p.
Proof.
  revert d. induction recs as [|[k v] recs IH]; intros d; [by right|].
  intros [Hin|Hget]%IH; [left; set_solver|].
  simpl in Hget. rewrite dict_get_setitem in Hget.
  case_bool_decide; [|by right]. left. simplify_eq. set_solver.
Qed.

Lemma external_records_elem_of errs n t :
  (n, t) ∈ external_records errs ↔ ExternalLinkage n t ∈ errs.
Proof.
  unfold external_records. rewrite list_elem_of_omap. split.
  - intros (e & He & Heq). destruct e; by simplify_eq.
  - intros Hin. by exists (ExternalLinkage n t).
Qed.

(** X1: [_categorize_errors] returns on a handler just built exactly when
    every record is a [BrokenLinkage] (or derived from it) and no name is
    reported both as broken and as external. *)
Theorem categorize_returns_iff md errs rc ignore out :
  (∃ w', LinkErrorHandler.categorize (fresh md errs rc ignore out) =
           (w', Return ())) ↔
  all_linkage errs ∧ no_overlap errs.
Proof.
  split.
  - intros [w' (Hall & Hov & _)%categorize_fresh_inv]. split; [done|].
    by eapply scanned_fresh_overlap.
  - intros [Hall Hno]. eexists. by apply categorize_fresh_ok.
Qed.

(** X2: once [_categorize_errors] has returned, [names] holds just the names
    of the records, [broken] just the names of the records that are
    [BrokenLinkage] without being [ExternalLinkage], the keys of [extern]
    just the names of the [ExternalLinkage] records, and every target kept in
    [extern] is the target of a record of that name. *)
Theorem categorize_fields_from_input md errs rc ignore out w' :
  LinkErrorHandler.categorize (fresh md errs rc ignore out) = (w', Return ()) →
  (∀ n, n ∈ names (self w') ↔ ∃ e, e ∈ errs ∧ dependent_library_name e = n) ∧
  (∀ n, n ∈ broken (self w') ↔ BrokenLinkage n ∈ errs) ∧
  (∀ n, n ∈ dict.keys (extern (self w')) ↔ ∃ t, ExternalLinkage n t ∈ errs) ∧
  (∀ n p, dict.get (extern (self w')) n = Some p → ExternalLinkage n p ∈ errs).
Proof.
  intros (Hall & Hov & ->)%categorize_fresh_inv. cbn [self].
  cbn [names broken extern set_new_library_recipe_needed].
  split_and!.
  - intros n. rewrite scanned_fresh_names, elem_of_list_to_set, list_elem_of_fmap.
    naive_solver.
  - intros n. rewrite scanned_fresh_broken by done.
    by rewrite elem_of_list_to_set, broken_names_elem_of.
  - intros n. by rewrite scanned_fresh_keys, first_seen_elem_of, external_names_elem_of.
  - intros n p. rewrite scanned_fresh_extern.
    intros [Hin|Hget]%assign_all_get_origin; [|done].
    by apply external_records_elem_of.
Qed.

Lemma categorize_fields_from_input_witness :
  LinkErrorHandler.categorize (fresh PyNone repeated PyNone false []) =
    (repeated_done, Return ()) ∧
  (∀ n, n ∈ broken (self repeated_done) ↔ BrokenLinkage n ∈ repeated) ∧
  (∀ n p, dict.get (extern (self repeated_done)) n = Some p →
          ExternalLinkage n p ∈ repeated).
Proof.
  split; [exact repeated_returns|].
  destruct (categorize_fields_from_input PyNone repeated PyNone false []
              repeated_done repeated_returns) as (_ & Hbroken & _ & Hget).
  split; [exact Hbroken | exact Hget].
Defined.

(** ** The order of the records *)

Lemma all_linkage_perm errs errs' : errs ≡ₚ errs' → all_linkage errs ↔ all_linkage errs'.
Proof. intros Hperm. unfold all_linkage. by rewrite Hperm. Qed.

Lemma no_overlap_perm errs errs' : errs ≡ₚ errs' → no_overlap errs ↔ no_overlap errs'.
Proof.
  intros Hperm. unfold no_overlap.
  split; intros Hno n; specialize (Hno n);
    rewrite broken_names_elem_of, external_names_elem_of in Hno |- *;
    setoid_rewrite Hperm in Hno || setoid_rewrite <- Hperm in Hno; done.
Qed.

(** X3: the order of the records decides neither whether
    [_categorize_errors] returns nor, when it does, what [names] and [broken]
    hold, which names are keys of [extern], or how many entries [extern] and
    [new_library_recipe_needed] have. *)
Theorem categorize_permutation md errs errs' rc ignore out :
  errs ≡ₚ errs' →
  ((∃ w, LinkErrorHandler.categorize (fresh md errs rc ignore out) = (w, Return ())) ↔
   (∃ w, LinkErrorHandler.categorize (fresh md errs' rc ignore out) = (w, Return ()))) ∧
  (∀ w w',
     LinkErrorHandler.categorize (fresh md errs rc ignore out) = (w, Return ()) →
     LinkErrorHandler.categorize (fresh md errs' rc ignore out) = (w', Return ()) →
     names (self w) = names (self w') ∧
     broken (self w) = broken (self w') ∧
     (list_to_set (dict.keys (extern (self w))) : gset string) =
       list_to_set (dict.keys (extern (self w'))) ∧
     dict.len (extern (self w)) = dict.len (extern (self w')) ∧
     length (new_library_recipe_needed (self w)) =
       length (new_library_recipe_needed (self w'))).
Proof.
  intros Hperm. split.
  - split; intros [w (Hall & Hov & _)%categorize_fresh_inv];
      eexists; apply categorize_fresh_ok.
    + by apply (all_linkage_perm errs errs').
    + apply (no_overlap_perm errs errs'); [done|]. by eapply scanned_fresh_overlap.
    + by apply (all_linkage_perm errs errs').
    + apply (no_overlap_perm errs errs'); [done|]. by eapply scanned_fresh_overlap.
  - intros w w' (Hall & _ & ->)%categorize_fresh_inv
                (Hall' & _ & ->)%categorize_fresh_inv.
    cbn [self names broken extern new_library_recipe_needed
         set_new_library_recipe_needed].
    assert (Hkeys : (list_to_set (first_seen (external_names errs)) : gset string) =
                    list_to_set (first_seen (external_names errs'))).
    { apply set_eq. intros n.
      rewrite !elem_of_list_to_set, !first_seen_elem_of, !external_names_elem_of.
      by setoid_rewrite Hperm. }
    assert (Hlen : length (first_seen (external_names errs)) =
                   length (first_seen (external_names errs'))).
    { rewrite !first_seen_length. f_equal. apply set_eq. intros n.
      rewrite !elem_of_list_to_set, !external_names_elem_of.
      by setoid_rewrite Hperm. }
    rewrite <- !scanned_fresh_keys with (md := md) (rc := rc)
      (ignore := ignore) (out := out) in Hlen.
    unfold dict.keys in Hlen. rewrite !length_fmap in Hlen.
    split_and!.
    + rewrite !scanned_fresh_names. by rewrite Hperm.
    + rewrite !scanned_fresh_broken by done. apply set_eq. intros n.
      rewrite !elem_of_list_to_set, !broken_names_elem_of. by rewrite Hperm.
    + by rewrite !scanned_fresh_keys.
    + done.
    + unfold dict.values. by rewrite !length_fmap.
Qed.

Lemma mixed_swapped_returns :
  LinkErrorHandler.categorize (fresh PyNone mixed_swapped PyNone false []) =
    ((LinkErrorHandler.categorize (fresh PyNone mixed_swapped PyNone false [])).1,
     Return ()).
Proof. vm_compute. reflexivity. Defined.

Lemma mixed_returns :
  LinkErrorHandler.categorize (fresh PyNone mixed PyNone false []) =
    (mixed_done, Return ()).
Proof. vm_compute. reflexivity. Defined.

Lemma categorize_permutation_witness :
  mixed ≡ₚ mixed_swapped ∧
  names (self mixed_done) =
    names (self (LinkErrorHandler.categorize
                   (fresh PyNone mixed_swapped PyNone false [])).1) ∧
  broken (self mixed_done) =
    broken (self (LinkErrorHandler.categorize
                    (fresh PyNone mixed_swapped PyNone false [])).1).
Proof.
  assert (Hperm : mixed ≡ₚ mixed_swapped) by apply perm_swap.
  split; [exact Hperm|].
  destruct (categorize_permutation PyNone mixed mixed_swapped PyNone false [] Hperm)
    as [_ Hfields].
  destruct (Hfields _ _ mixed_returns mixed_swapped_returns) as (Hn & Hb & _).
  split; [exact Hn | exact Hb].
Defined.

(** ** A second run on the same handler *)

Lemma dict_get_None (d : dict.t) k : k ∉ dict.keys d → dict.get d k = None.
Proof.
  unfold dict.keys. induction d as [|[k' v'] d IH]; csimpl; [done|].
  intros Hnin. rewrite bool_decide_eq_false_2 by set_solver. apply IH. set_solver.
Qed.

Lemma dict_ext (d1 d2 : dict.t) :
  dict.keys d1 = dict.keys d2 → NoDup (dict.keys d1) →
  (∀ k, dict.get d1 k = dict.get d2 k) → d1 = d2.
Proof.
  revert d2. induction d1 as [|[k v] d1 IH]; intros [|[k2 v2] d2] Hkeys Hnd Hget;
    try done.
  injection Hkeys as <- Hkeys. apply NoDup_cons in Hnd as [Hk Hnd].
  pose proof (Hget k) as Hv. simpl in Hv.
  rewrite !bool_decide_eq_true_2 in Hv by done. injection Hv as <-.
  f_equal. apply IH; [done | done |]. intros k'.
  destruct (decide (k = k')) as [<-|Hne].
  - rewrite !dict_get_None; [done | by rewrite <- Hkeys | done].
  - specialize (Hget k'). simpl in Hget.
    by rewrite !bool_decide_eq_false_2 in Hget by done.
Qed.

Lemma assign_all_get recs (d : dict.t) k :
  dict.get (assign_all d recs) k =
  match dict.get (assign_all dict.empty recs) k with
  | Some v => Some v
  | None => dict.get d k
  end.
Proof.
  revert d. induction recs as [|[k0 v0] recs IH]; intros d; [done|].
  unfold assign_all in *. cbn [foldl fst snd].
  rewrite (IH (dict.setitem d k0 v0)), (IH (dict.setitem dict.empty k0 v0)).
  destruct (dict.get (foldl _ dict.empty recs) k); [done|].
  rewrite !dict_get_setitem. by case_bool_decide.
Qed.

Lemma foldl_see_absorb (l seen : list string) :
  (∀ x, x ∈ l → x ∈ seen) → foldl see seen l = seen.
Proof.
  induction l as [|x l IH]; intros Hin; [done|]. cbn [foldl].
  unfold see at 2. rewrite bool_decide_eq_true_2 by set_solver.
  apply IH. set_solver.
Qed.

Lemma assign_all_again recs :
  assign_all (assign_all dict.empty recs) recs = assign_all dict.empty recs.
Proof.
  apply dict_ext.
  - rewrite assign_all_keys. apply foldl_see_absorb. intros x Hx.
    rewrite assign_all_keys. by apply foldl_see_elem_of; right.
  - rewrite assign_all_keys. apply foldl_see_NoDup.
    rewrite assign_all_keys. apply first_seen_NoDup.
  - intros k. rewrite assign_all_get. by destruct (dict.get _ k).
Qed.

Lemma classified_set_needed v errs h :
  foldl classified (set_new_library_recipe_needed v h) errs =
  set_new_library_recipe_needed v (foldl classified h errs).
Proof.
  revert h. induction errs as [|e errs IH]; intros h; [done|].
  cbn [foldl]. rewrite <- IH. f_equal. by destruct e, h.
Qed.

(** X4: [_categorize_errors] run a second time on the handler it has
    returned on returns again and leaves [names], [broken] and [extern] as
    they are, but appends every path once more: [new_library_recipe_needed]
    then holds its paths twice. *)
Theorem categorize_twice md errs rc ignore out w1 :
  LinkErrorHandler.categorize (fresh md errs rc ignore out) = (w1, Return ()) →
  ∃ w2,
    LinkErrorHandler.categorize w1 = (w2, Return ()) ∧
    names (self w2) = names (self w1) ∧
    broken (self w2) = broken (self w1) ∧
    extern (self w2) = extern (self w1) ∧
    new_library_recipe_needed (self w2) =
      (new_library_recipe_needed (self w1) ++ new_library_recipe_needed (self w1))%list.
Proof.
  intros (Hall & Hov & ->)%categorize_fresh_inv.
  set (h1 := scanned (fresh md errs rc ignore out)) in *.
  assert (Herrs : errors h1 = errs).
  { unfold h1, scanned.
    by destruct (classified_frame (errors (self (fresh md errs rc ignore out)))
                   (self (fresh md errs rc ignore out))) as (_ & _ & _ & _ & -> & _). }
  assert (Hn : names (foldl classified h1 errs) = names h1).
  { rewrite classified_names. unfold h1. rewrite scanned_fresh_names. set_solver. }
  assert (Hb : broken (foldl classified h1 errs) = broken h1).
  { rewrite classified_broken by done. unfold h1.
    rewrite scanned_fresh_broken by done. set_solver. }
  assert (Hx : extern (foldl classified h1 errs) = extern h1).
  { rewrite classified_extern. unfold h1. rewrite scanned_fresh_extern.
    apply assign_all_again. }
  assert (Hr : new_library_recipe_needed (foldl classified h1 errs) = []).
  { destruct (classified_frame errs h1) as (_ & _ & _ & _ & _ & -> & _).
    apply scanned_fresh_needed. }
  assert (Hsc : scanned (mkWorld (set_new_library_recipe_needed
                                    (dict.values (extern h1)) h1) out) =
                set_new_library_recipe_needed (dict.values (extern h1))
                  (foldl classified h1 errs)).
  { unfold scanned. cbn [self errors set_new_library_recipe_needed].
    by rewrite Herrs, classified_set_needed. }
  rewrite categorize_linkage by (cbn [self errors set_new_library_recipe_needed];
                                 by rewrite Herrs).
  cbn zeta. rewrite Hsc. unfold overlap.
  cbn [extern broken new_library_recipe_needed set_new_library_recipe_needed
       stderr].
  rewrite Hx, Hb. fold (overlap h1). rewrite Hov.
  rewrite bool_decide_eq_true_2 by done.
  eexists. split; [done|].
  cbn [self names broken extern new_library_recipe_needed
       set_new_library_recipe_needed].
  by rewrite Hn.
Qed.

Lemma categorize_twice_witness :
  LinkErrorHandler.categorize (fresh PyNone repeated PyNone false []) =
    (repeated_done, Return ()) ∧
  ∃ w2,
    LinkErrorHandler.categorize repeated_done = (w2, Return ()) ∧
    names (self w2) = names (self repeated_done) ∧
    broken (self w2) = broken (self repeated_done) ∧
    extern (self w2) = extern (self repeated_done) ∧
    new_library_recipe_needed (self w2) =
      (new_library_recipe_needed (self repeated_done) ++
       new_library_recipe_needed (self repeated_done))%list.
Proof.
  split; [exact repeated_returns|].
  exact (categorize_twice PyNone repeated PyNone false [] repeated_done
           repeated_returns).
Defined.

(** ** A record of a foreign class *)

Lemma loop_stranger pre n post w :
  all_linkage pre →
  for_each LinkErrorHandler.categorize_error (pre ++ OtherError n :: post) w =
    (mkWorld (set_names ({[ n ]} ∪ names (foldl classified (self w) pre))
                (foldl classified (self w) pre))
             (stderr w),
     Raise (AssertionError None)).
Proof.
  intros Hall. revert w. induction Hall as [|e pre He _ IH]; intros w.
  - cbn [app for_each foldl]. by rewrite bind_unfold, categorize_error_other.
  - cbn [app for_each foldl].
    erewrite bind_return by by apply categorize_error_linkage.
    by rewrite IH.
Qed.

(** X5: the scan stops at the first record that is no [BrokenLinkage]:
    [_categorize_errors] ends in the bare [AssertionError] with nothing
    written and no path appended; [names] holds the names up to and with that
    record, [broken] and [extern] hold what the records before it gave, and
    no record behind it has been looked at. *)
Theorem categorize_stops_at_stranger md pre n post rc ignore out :
  all_linkage pre →
  ∃ w',
    LinkErrorHandler.categorize
      (fresh md (pre ++ OtherError n :: post) rc ignore out) =
      (w', Raise (AssertionError None)) ∧
    names (self w') = list_to_set (dependent_library_name <$> pre) ∪ {[ n ]} ∧
    broken (self w') = list_to_set (broken_names pre) ∧
    dict.keys (extern (self w')) = first_seen (external_names pre) ∧
    (∀ k p, dict.get (extern (self w')) k = Some p → ExternalLinkage k p ∈ pre) ∧
    new_library_recipe_needed (self w') = [] ∧
    stderr w' = out.
Proof.
  intros Hall. eexists. split.
  - apply categorize_loop_raise. cbn [fresh self errors BaseLinkErrorHandler.__init__ errors_of].
    by apply loop_stranger.
  - cbn [self stderr fresh]. cbn [names broken extern new_library_recipe_needed set_names].
    split_and!.
    + rewrite classified_names. cbn. set_solver.
    + rewrite classified_broken by done. cbn. set_solver.
    + by rewrite classified_extern, assign_all_keys.
    + intros k p. rewrite classified_extern.
      intros [Hin|Hget]%assign_all_get_origin; [|done].
      by apply external_records_elem_of.
    + by destruct (classified_frame pre
        (BaseLinkErrorHandler.__init__ md
           {| errors_of := (pre ++ OtherError n :: post)%list |} rc ignore))
        as (_ & _ & _ & _ & _ & -> & _).
    + done.
Qed.

Lemma categorize_stops_at_stranger_witness :
  all_linkage clash ∧
  ∃ w',
    LinkErrorHandler.categorize (fresh PyNone clash_and_stranger PyNone false []) =
      (w', Raise (AssertionError None)) ∧
    names (self w') = list_to_set (dependent_library_name <$> clash) ∪ {[ "libc.so" ]} ∧
    stderr w' = [].
Proof.
  split; [exact clash_all_linkage|].
  destruct (categorize_stops_at_stranger PyNone clash "libc.so" [] PyNone false []
              clash_all_linkage) as (w' & Hcat & Hnames & _ & _ & _ & _ & Hout).
  exists w'. split; [exact Hcat|]. split; [exact Hnames | exact Hout].
Defined.

(** ** Every way [handle] can end *)

Lemma handle_cases set_order md errs rc ignore out :
  (errs ≠ [] ∧ all_linkage errs ∧ no_overlap errs ∧
   ∃ h,
     LinkErrorHandler.handle set_order (fresh md errs rc ignore out) =
       (mkWorld h (out ++ [join nl (report set_order errs) +:+ nl;
                           final_message +:+ nl])%list,
        if ignore then Return () else Raise (SystemExit 1)) ∧
     error_messages h = Some (report set_order errs)) ∨
  (¬ (errs ≠ [] ∧ all_linkage errs ∧ no_overlap errs) ∧
   ∃ w' args,
     LinkErrorHandler.handle set_order (fresh md errs rc ignore out) =
       (w', Raise (AssertionError args)) ∧
     stderr w' = out).
Proof.
  destruct errs as [|e errs].
  { right. split; [by intros [? _]|]. by eexists _, _. }
  set (l := e :: errs).
  destruct (decide (all_linkage l)) as [Hall|Hnot].
  - destruct (decide (overlap (scanned (fresh md l rc ignore out)) = ∅)) as [Hov|Hov].
    + apply scanned_fresh_overlap in Hov; [|done]. left.
      split_and!; [done | done | done |]. by apply handle_fresh.
    + rewrite scanned_fresh_overlap in Hov by done. right.
      split; [by intros (_ & _ & ?)|].
      unfold LinkErrorHandler.handle, BaseLinkErrorHandler.handle.
      cbn [_categorize_errors _process_errors LinkErrorHandler.methods].
      erewrite bind_raise by by apply categorize_fresh_clash.
      by eexists _, _.
  - right. split; [by intros (_ & ? & _)|].
    destruct (categorize_not_linkage (fresh md l rc ignore out))
      as (w1 & Hcat & _); [done|].
    pose proof (categorize_stderr (fresh md l rc ignore out)) as Hout.
    rewrite Hcat in Hout. cbn in Hout.
    unfold LinkErrorHandler.handle, BaseLinkErrorHandler.handle.
    cbn [_categorize_errors _process_errors LinkErrorHandler.methods].
    erewrite bind_raise by exact Hcat.
    by eexists _, _.
Qed.

(** X6: [handle] returns exactly when the flag is set, the collection is not
    empty, every record is a [BrokenLinkage] and no name is both broken and
    external; it ends in [SystemExit] exactly when the flag is unset and the
    same holds, and the status is then 1. *)
Theorem handle_returns_or_exits_iff set_order md errs rc ignore out :
  ((∃ w', LinkErrorHandler.handle set_order (fresh md errs rc ignore out) =
            (w', Return ())) ↔
   ignore = true ∧ errs ≠ [] ∧ all_linkage errs ∧ no_overlap errs) ∧
  ((∃ w' code, LinkErrorHandler.handle set_order (fresh md errs rc ignore out) =
                 (w', Raise (SystemExit code))) ↔
   ignore = false ∧ errs ≠ [] ∧ all_linkage errs ∧ no_overlap errs) ∧
  (∀ w' code, LinkErrorHandler.handle set_order (fresh md errs rc ignore out) =
                (w', Raise (SystemExit code)) → code = 1%Z).
Proof.
  destruct (handle_cases set_order md errs rc ignore out)
    as [(Hne & Hall & Hno & h & Hh & _)|(Hnot & w1 & args & Hh & _)];
    rewrite Hh; split_and!.
  - split; [|intros (-> & _); by eexists].
    intros [w' Heq]. by destruct ignore.
  - split; [|intros (-> & _); by eexists _, _].
    intros (w' & code & Heq). by destruct ignore.
  - intros w' code Heq. destruct ignore; by simplify_eq.
  - split; [by intros [w' ?]|]. intros (_ & ? & ? & ?). by destruct Hnot.
  - split; [by intros (w' & code & ?)|]. intros (_ & ? & ? & ?). by destruct Hnot.
  - by intros w' code ?.
Qed.

(** X7: [handle] writes all or nothing.  Either it ends in an
    [AssertionError] and the diagnostic stream is as it was, or it has
    appended two chunks, the messages kept in [error_messages] and then
    [final_message], and it returns or ends in [SystemExit(1)]; it never
    writes [final_message] alone and never raises anything else. *)
Theorem handle_all_or_nothing set_order md errs rc ignore out :
  let res := LinkErrorHandler.handle set_order (fresh md errs rc ignore out) in
  (stderr res.1 = out ∧ ∃ args, res.2 = Raise (AssertionError args)) ∨
  (∃ msgs,
     msgs ≠ [] ∧
     stderr res.1 = (out ++ [join nl msgs +:+ nl; final_message +:+ nl])%list ∧
     error_messages (self res.1) = Some msgs ∧
     (res.2 = Return () ∨ res.2 = Raise (SystemExit 1))).
Proof.
  cbn zeta.
  destruct (handle_cases set_order md errs rc ignore out)
    as [(Hne & Hall & Hno & h & Hh & Hmsgs)|(Hnot & w1 & args & Hh & Hout)];
    rewrite Hh; cbn [fst snd self stderr].
  - right. exists (report set_order errs).
    split_and!; [by apply report_nonempty | done | done |].
    destruct ignore; [by left | by right].
  - left. split; [done | by eexists].
Qed.

(** ** _process_errors and assert_disjoint on their own *)


(** X9: when the order in which a set is walked leaves no element out and
    [_process_errors] returns, the chunk it writes contains every path of
    [new_library_recipe_needed] and every name of [broken]. *)
Theorem process_lists_everything set_order w w' :
  (∀ (s : gset string) x, x ∈ s → x ∈ set_order s) →
  LinkErrorHandler.process set_order w = (w', Return ()) →
  ∃ chunk,
    stderr w' = (stderr w ++ [chunk])%list ∧
    (∀ p, p ∈ new_library_recipe_needed (self w) → contains chunk p) ∧
    (∀ n, n ∈ broken (self w) → contains chunk n).
Proof.
  intros Horder. rewrite process_unfold. cbn zeta.
  case_bool_decide as Hmsgs; [|done]. intros [= <-].
  eexists. split; [done|]. split.
  - intros p Hp. apply contains_app_l.
    apply (contains_trans _
             (LinkErrorHandler.external_message (new_library_recipe_needed (self w)))).
    + apply join_contains. unfold messages.
      rewrite bool_decide_eq_true_2 by (intros Hnil; rewrite Hnil in Hp;
                                        by apply elem_of_nil in Hp).
      set_solver.
    + unfold LinkErrorHandler.external_message.
      do 4 apply contains_app_r. by apply contains_app_l, join_contains.
  - intros n Hn. apply contains_app_l.
    apply (contains_trans _
             (LinkErrorHandler.broken_message set_order (broken (self w)))).
    + apply join_contains. unfold messages.
      rewrite (bool_decide_eq_true_2 (broken (self w) ≠ ∅)) by set_solver.
      set_solver.
    + unfold LinkErrorHandler.broken_message.
      by apply contains_app_r, join_contains, Horder.
Qed.

Lemma process_lists_everything_witness :
  (∀ (s : gset string) x, x ∈ s → x ∈ elements s) ∧
  LinkErrorHandler.process elements mixed_done =
    ((LinkErrorHandler.process elements mixed_done).1, Return ()) ∧
  ∃ chunk,
    stderr (LinkErrorHandler.process elements mixed_done).1 =
      (stderr mixed_done ++ [chunk])%list ∧
    (∀ p, p ∈ new_library_recipe_needed (self mixed_done) → contains chunk p) ∧
    (∀ n, n ∈ broken (self mixed_done) → contains chunk n).
Proof.
  assert (Horder : ∀ (s : gset string) x, x ∈ s → x ∈ elements s).
  { intros s x Hx. by apply elem_of_elements. }
  assert (Hrun : LinkErrorHandler.process elements mixed_done =
                 ((LinkErrorHandler.process elements mixed_done).1, Return ()))
    by (vm_compute; reflexivity).
  split; [exact Horder|]. split; [exact Hrun|].
  exact (process_lists_everything elements mixed_done _ Horder Hrun).
Defined.

(** X10: [assert_disjoint] never changes the world.  It returns exactly when
    no element of [left] is in [right]; when it fails, its [AssertionError]
    carries [left], [right] and the set of their common elements, which is
    not empty. *)
Theorem assert_disjoint_iff (left : list string) (right : gset string) w :
  ((LinkErrorHandler.assert_disjoint left right w).1 = w) ∧
  ((LinkErrorHandler.assert_disjoint left right w).2 = Return () ↔
   ∀ x, x ∈ left → x ∉ right) ∧
  (∀ e, (LinkErrorHandler.assert_disjoint left right w).2 = Raise e →
        ∃ both x,
          e = AssertionError (Some (both, left, right)) ∧
          x ∈ both ∧
          ∀ y, y ∈ both ↔ y ∈ left ∧ y ∈ right).
Proof.
  unfold LinkErrorHandler.assert_disjoint, assert.
  case_bool_decide as Hempty; cbn [fst snd]; split_and!; try done.
  - split; [|done]. intros _ x Hl Hr.
    assert (x ∈ (∅ : gset string)) as Hx; [|set_solver].
    rewrite <- Hempty. set_solver.
  - split; [done|]. intros Hdis. destruct Hempty. set_solver.
  - intros e [= <-]. apply set_choose_L in Hempty as [x Hx].
    exists (list_to_set left ∩ right), x. split_and!; [done | done |].
    intros y. set_solver.
Qed.

(** ** [handle] for any subclass *)

(** X11: whatever the subclass, [handle] stops at the first method that
    raises and passes its exception on, in the world that method left:
    after a failure in [_categorize_errors] neither [_process_errors] nor
    [_finalize] runs, and after one in [_process_errors] [_finalize] does not.
    With the methods of the base class itself it ends in
    [NotImplementedError] and the world is untouched. *)
Theorem handle_stops_at_first_failure cls w :
  (∀ w1 e, _categorize_errors cls w = (w1, Raise e) →
           BaseLinkErrorHandler.handle cls w = (w1, Raise e)) ∧
  (∀ w1 w2 e, _categorize_errors cls w = (w1, Return ()) →
              _process_errors cls w1 = (w2, Raise e) →
              BaseLinkErrorHandler.handle cls w = (w2, Raise e)) ∧
  BaseLinkErrorHandler.handle BaseLinkErrorHandler.methods w =
    (w, Raise NotImplementedError).
Proof.
  unfold BaseLinkErrorHandler.handle. split_and!.
  - intros w1 e Hc. by erewrite bind_raise.
  - intros w1 w2 e Hc Hp. erewrite bind_return by exact Hc. by erewrite bind_raise.
  - done.
Qed.


